(** * The customer-service agent of [customer_service_agent.ipynb]

    A shallow embedding of the notebook's workflow: the [State] dictionary,
    the four node functions, the sentiment router, the graph assembled by
    the [builder], its walk by [graph.invoke], and [run_agent].

    The language model, the process environment and the MongoDB collection
    are external; they are gathered in a [World] whose components may
    answer or raise, and every function that uses one takes the world as a
    parameter.  Everything a run does besides computing its result (calls
    of the external services, lines printed, nodes entered) is recorded in
    an event log, so that "never invoked" and "only reported" are
    statements about that log. *)

From stdpp Require Import base option strings gmap list.

Open Scope string_scope.

(** ** Data model *)

(** [class State(TypedDict)]: at run time a plain [dict] from field names
    to strings.  A field that has not been written yet is an absent key. *)
Abbreviation State := (gmap string string).

(** [class QueryDetails(BaseModel)]: two unconstrained [str] fields. *)
Record QueryDetails : Type := mkQueryDetails {
  sentiment : string;
  category : string;
}.

(** Python exceptions that can occur in a run.  [Failure] stands for any
    exception raised by an external service (language model unavailable,
    malformed structured output, database unreachable, ...), with its
    message; [GraphRecursionError] is what the walk raises when it runs
    into its step limit. *)
Inductive exn : Type :=
| KeyError (key : string)
| ValueError (msg : string)
| GraphRecursionError
| Failure (msg : string).

(** [str(e)] as printed by [record_to_database]; the text of a [KeyError]
    is the [repr] of the key.  Only [KeyError] and [Failure] can be raised
    inside that function's [try] block. *)
Definition str (e : exn) : string :=
  match e with
  | KeyError key => "'" ++ key ++ "'"
  | ValueError msg => msg
  | GraphRecursionError => "Recursion limit reached"
  | Failure msg => msg
  end.

(** Observable effects of a run, in program order. *)
Inductive event : Type :=
| Enter (node : string) (channels : State)
    (* the walk starts [node] on the state read from the channels *)
| ChainInvoke (query : string)
    (* [chain.invoke({"query": query})] *)
| LLMInvoke (prompt : string)
    (* [llm.invoke(prompt)] *)
| InsertOne (url : string) (payload : State)
    (* [collection.insert_one(payload)] on the client of [url] *)
| Printed (args : list string).
    (* [print] of the given arguments *)

(** What an external service does when called: raise, or return. *)
Inductive reply (A : Type) : Type :=
| Raised (msg : string)
| Returned (a : A).
Arguments Raised {A} msg.
Arguments Returned {A} a.

(** The external collaborators: the structured-output chain, the plain
    model call, the process environment and the MongoDB collection.
    [insert_one] answers with the inserted id or raises, and also yields
    the payload dictionary as the driver leaves it (pymongo adds an
    ["_id"] key to the dictionary it is given). *)
Record World : Type := mkWorld {
  chain_invoke : string → reply QueryDetails;
  llm_invoke : string → reply string;
  environ : gmap string string;
  insert_one : string → State → reply string * State;
}.

(** The same world with another environment and another collection. *)
Definition with_store (w : World) (env : gmap string string)
    (ins : string → State → reply string * State) : World :=
  mkWorld (chain_invoke w) (llm_invoke w) env ins.

(** ** A writer-and-exception monad for the Python code *)

Definition M (A : Type) : Type := (exn + A) * list event.

Definition ret {A} (a : A) : M A := (inr a, []).

Definition bind {A B} (m : M A) (f : A → M B) : M B :=
  match m with
  | (inl e, out) => (inl e, out)
  | (inr a, out) => let '(r, out') := f a in (r, (out ++ out')%list)
  end.

Definition raise {A} (e : exn) : M A := (inl e, []).

Definition emit (ev : event) : M unit := (inr tt, [ev]).

(** [try: body except Exception as e: handler(e)] *)
Definition try_except {A} (body : M A) (handler : exn → M A) : M A :=
  match body with
  | (inl e, out) => let '(r, out') := handler e in (r, (out ++ out')%list)
  | (inr a, out) => (inr a, out)
  end.

#[global] Instance M_ret : MRet M := @ret.
#[global] Instance M_bind : MBind M := λ A B f m, bind m f.

(** [d[key]] *)
Definition getitem (d : gmap string string) (key : string) : M string :=
  match d !! key with
  | Some v => ret v
  | None => raise (KeyError key)
  end.

(** [print] of the given arguments *)
Definition print (args : list string) : M unit := emit (Printed args).

(** A call of an external service: logged, then it raises or returns. *)
Definition call {A} (ev : event) (answer : reply A) : M A :=
  match answer with
  | Raised msg => (inl (Failure msg), [ev])
  | Returned a => (inr a, [ev])
  end.

Definition value {A} (m : M A) : exn + A := fst m.
Definition output {A} (m : M A) : list event := snd m.

(** ** Node functions *)

Definition dquote : string := String (Ascii.ascii_of_nat 34) EmptyString.

Definition escalation_message : string :=
  "This query has been escalated to a customer service representative due to its negative sentiment.".

Definition get_sentiment_and_category (w : World) (state : State)
  : M (option State) :=
  query ← getitem state "query";
  response ← call (ChainInvoke query) (chain_invoke w query);
  mret (Some {[ "sentiment" := sentiment response;
                "category" := category response ]}).

Definition route_query_from_sentiment (state : State) : M string :=
  sentiment ← getitem state "sentiment";
  if decide (sentiment = "Negative")
  then mret "escalate"
  else mret "handle_queries".

Definition escalate (state : State) : M (option State) :=
  mret (Some {[ "response" := escalation_message ]}).

Definition handle_queries (w : World) (state : State) : M (option State) :=
  category ← getitem state "category";
  query ← getitem state "query";
  let prompt :=
    "Generate a " ++ category
      ++ " support response for the following query: "
      ++ dquote ++ query ++ dquote ++ " , under 50 words." in
  response ← call (LLMInvoke prompt) (llm_invoke w prompt);
  mret (Some {[ "response" := response ]}).

(** The body of the [try] block.  [payload] is the very dictionary the
    node was given, so what [insert_one] does to it is done to [state];
    the block yields the dictionary as it is left. *)
Definition record_to_database_try (w : World) (state : State) : M State :=
  url ← getitem (environ w) "MONGO_URL";
  let payload := state in
  let '(x, payload') := insert_one w url payload in
  inserted_id ← call (InsertOne url payload) x;
  print ["Inserted document ID: " ++ inserted_id];;
  mret payload'.

(** The function has no [return]: it yields [None] on both paths. *)
Definition record_to_database (w : World) (state : State)
  : M (option State) :=
  try_except
    (record_to_database_try w state;; mret tt)
    (λ e, print ["An error occurred: "; str e]);;
  mret None.

(** ** The graph builder *)

Definition START : string := "__start__".
Definition END : string := "__end__".

(** A node maps the state it is given to a partial update ([None] when
    the Python function returns nothing); a router maps it to a node name. *)
Definition Node : Type := State → M (option State).
Definition Router : Type := State → M string.

Record StateGraph : Type := mkStateGraph {
  nodes : list (string * Node);
  edges : list (string * string);
  branches : list (string * (Router * list string));
}.

Definition StateGraph_new : StateGraph := mkStateGraph [] [] [].

Definition add_node (name : string) (action : Node) (b : StateGraph)
  : StateGraph :=
  mkStateGraph (nodes b ++ [(name, action)])%list (edges b) (branches b).

Definition add_edge (start_key end_key : string) (b : StateGraph)
  : StateGraph :=
  mkStateGraph (nodes b) (edges b ++ [(start_key, end_key)])%list (branches b).

Definition add_conditional_edges (source : string) (path : Router)
    (path_map : list string) (b : StateGraph) : StateGraph :=
  mkStateGraph (nodes b) (edges b)
    (branches b ++ [(source, (path, path_map))])%list.

(** The cell that defines the graph, call by call. *)
Definition builder (w : World) : StateGraph :=
  let b := StateGraph_new in
  let b := add_node "get_sentiment_and_category"
             (get_sentiment_and_category w) b in
  let b := add_node "escalate" escalate b in
  let b := add_node "handle_queries" (handle_queries w) b in
  let b := add_node "record_to_database" (record_to_database w) b in
  let b := add_edge START "get_sentiment_and_category" b in
  let b := add_conditional_edges "get_sentiment_and_category"
             route_query_from_sentiment ["escalate"; "handle_queries"] b in
  let b := add_edge "handle_queries" "record_to_database" b in
  let b := add_edge "escalate" "record_to_database" b in
  let b := add_edge "record_to_database" END b in
  b.

(** First binding of a key in an association list. *)
Fixpoint assoc {A} (key : string) (l : list (string * A)) : option A :=
  match l with
  | [] => None
  | (k, a) :: l' => if decide (k = key) then Some a else assoc key l'
  end.

Definition declared (b : StateGraph) (name : string) : bool :=
  bool_decide (name ∈ (nodes b).*1).

(** [builder.compile()] checks the wiring: there is an edge out of
    [START], every edge starts at [START] or a declared node and ends at
    [END] or a declared node, and every branch starts at a declared node
    and lists declared nodes. *)
Definition validate (b : StateGraph) : bool :=
  bool_decide (START ∈ (edges b).*1)
  && forallb (λ e, (bool_decide (e.1 = START) || declared b e.1)
                   && (bool_decide (e.2 = END) || declared b e.2)) (edges b)
  && forallb (λ br, declared b br.1 && forallb (declared b) br.2.2)
       (branches b).

Definition compile (b : StateGraph) : M StateGraph :=
  if validate b then mret b
  else raise (ValueError "invalid graph").

Definition graph (w : World) : M StateGraph := compile (builder w).

(** ** The walk of a compiled graph

    [graph.invoke(input)] for a graph in which, as here, a node has one
    outgoing edge or one conditional branch.  The input is written to the
    channels; then the nodes run one after the other, each on the state
    read from the channels; the update a node returns is written key by
    key over the channels; the router of a branch sees the channels after
    that write; an exception raised by a node or a router ends the walk
    and is raised by [invoke].  The dictionary handed to a node is read
    afresh from the channels, so whatever the node does to it stays with
    the node.  Each node entered, and the arrival at [END], takes one
    unit of the step limit; the walk raises [GraphRecursionError] when
    none is left, so a run through n nodes returns only under a limit of
    n + 1 or more.  The limit is [recursion_limit], 25 unless configured
    otherwise. *)

Definition recursion_limit : nat := 25.

Definition apply_writes (update : option State) (channels : State) : State :=
  match update with
  | Some u => u ∪ channels
  | None => channels
  end.

Definition successor (g : StateGraph) (cur : string) (channels : State)
  : M string :=
  match assoc cur (branches g) with
  | Some (path, path_map) =>
      target ← path channels;
      if bool_decide (target ∈ path_map) then mret target
      else raise (KeyError target)
  | None =>
      match assoc cur (edges g) with
      | Some target => mret target
      | None => mret END
      end
  end.

Fixpoint walk (g : StateGraph) (fuel : nat) (cur : string)
    (channels : State) : M State :=
  match fuel with
  | O => raise GraphRecursionError
  | S fuel' =>
      if decide (cur = END) then mret channels
      else match assoc cur (nodes g) with
           | None => raise (KeyError cur)
           | Some action =>
               emit (Enter cur channels);;
               update ← action channels;
               let channels' := apply_writes update channels in
               next ← successor g cur channels';
               walk g fuel' next channels'
           end
  end.

Definition invoke (g : StateGraph) (input : State) : M State :=
  entry ← successor g START input;
  walk g recursion_limit entry input.

(** [graph.invoke(input)] on the notebook's global [graph]. *)
Definition graph_invoke (w : World) (input : State) : M State :=
  g ← graph w;
  invoke g input.

(** ** Running the agent *)

Definition run_agent (w : World) (query : string) : M unit :=
  result ← graph_invoke w {[ "query" := query ]};
  print ["Query: "; query];;
  sentiment ← getitem result "sentiment";
  print ["Sentiment: "; sentiment];;
  category ← getitem result "category";
  print ["Category: "; category];;
  response ← getitem result "response";
  print ["Response: "; response];;
  print ["-x-x-x-x-x-x-x-x-"].

(** Names of the nodes a run entered, in order. *)
Definition steps (out : list event) : list string :=
  omap (λ ev, match ev with Enter node _ => Some node | _ => None end) out.

(** A node is terminal when its only way on is to [END]. *)
Definition terminal (g : StateGraph) (name : string) : bool :=
  bool_decide (assoc name (branches g) = None)
  && bool_decide (assoc name (edges g) = Some END).

(** ** What each node does *)

(** The channels after the classification step wrote its update. *)
Definition classified (response : QueryDetails) (s : State) : State :=
  {[ "sentiment" := sentiment response; "category" := category response ]} ∪ s.

(** The channels after a response was written. *)
Definition answered (response : string) (s : State) : State :=
  {[ "response" := response ]} ∪ s.

(** The prompt [handle_queries] builds. *)
Definition prompt_for (category query : string) : string :=
  "Generate a " ++ category
    ++ " support response for the following query: "
    ++ dquote ++ query ++ dquote ++ " , under 50 words.".

(** The three ways through [record_to_database]. *)
Inductive record_case (w : World) (c : State) : M (option State) → Prop :=
| record_no_url :
    environ w !! "MONGO_URL" = None →
    record_case w c
      (inr None, [Printed ["An error occurred: "; str (KeyError "MONGO_URL")]])
| record_store_raises url e c' :
    environ w !! "MONGO_URL" = Some url →
    insert_one w url c = (Raised e, c') →
    record_case w c
      (inr None,
       [InsertOne url c; Printed ["An error occurred: "; str (Failure e)]])
| record_stored url x c' :
    environ w !! "MONGO_URL" = Some url →
    insert_one w url c = (Returned x, c') →
    record_case w c
      (inr None, [InsertOne url c; Printed ["Inserted document ID: " ++ x]]).

(** The five ways through the graph: what a run returns and what it
    leaves in the log, by what the classifier and the generator do. *)
Inductive run_case (w : World) (s : State) : M State → Prop :=
| run_missing_query :
    s !! "query" = None →
    run_case w s
      (inl (KeyError "query"), [Enter "get_sentiment_and_category" s])
| run_classifier_raises q e :
    s !! "query" = Some q →
    chain_invoke w q = Raised e →
    run_case w s
      (inl (Failure e),
       [Enter "get_sentiment_and_category" s; ChainInvoke q])
| run_escalated q qd :
    s !! "query" = Some q →
    chain_invoke w q = Returned qd →
    sentiment qd = "Negative" →
    run_case w s
      (inr (answered escalation_message (classified qd s)),
       [Enter "get_sentiment_and_category" s; ChainInvoke q;
        Enter "escalate" (classified qd s);
        Enter "record_to_database"
          (answered escalation_message (classified qd s))]
       ++ output (record_to_database w
                    (answered escalation_message (classified qd s))))%list
| run_generator_raises q qd e :
    s !! "query" = Some q →
    chain_invoke w q = Returned qd →
    sentiment qd ≠ "Negative" →
    llm_invoke w (prompt_for (category qd) q) = Raised e →
    run_case w s
      (inl (Failure e),
       [Enter "get_sentiment_and_category" s; ChainInvoke q;
        Enter "handle_queries" (classified qd s);
        LLMInvoke (prompt_for (category qd) q)])
| run_answered q qd r :
    s !! "query" = Some q →
    chain_invoke w q = Returned qd →
    sentiment qd ≠ "Negative" →
    llm_invoke w (prompt_for (category qd) q) = Returned r →
    run_case w s
      (inr (answered r (classified qd s)),
       [Enter "get_sentiment_and_category" s; ChainInvoke q;
        Enter "handle_queries" (classified qd s);
        LLMInvoke (prompt_for (category qd) q);
        Enter "record_to_database" (answered r (classified qd s))]
       ++ output (record_to_database w (answered r (classified qd s))))%list.

(** ** Sample worlds and inputs *)

Definition constant_world (classification : reply QueryDetails)
    (generation : reply string) (env : gmap string string)
    (stored : reply string) : World :=
  mkWorld (λ _, classification) (λ _, generation) env
    (λ _ payload,
       (stored,
        match stored with
        | Returned x => <[ "_id" := x ]> payload
        | Raised _ => payload
        end)).

Definition mongo_env : gmap string string :=
  {[ "MONGO_URL" := "mongodb://localhost:27017" ]}.

Definition w_neutral : World :=
  constant_world (Returned (mkQueryDetails "Neutral" "General"))
    (Returned "We are open from 9 to 6, Monday to Friday.")
    mongo_env (Returned "67ece14ccbd07acc4db059db").

Definition w_negative : World :=
  constant_world (Returned (mkQueryDetails "Negative" "General"))
    (Returned "unused") mongo_env (Returned "67ece143cbd07acc4db059d7").

Definition w_shipping : World :=
  constant_world (Returned (mkQueryDetails "Neutral" "Shipping"))
    (Returned "Your parcel is on its way.")
    mongo_env (Returned "67ece141cbd07acc4db059d5").

Definition w_classifier_down : World :=
  constant_world (Raised "classifier unavailable")
    (Returned "unused") mongo_env (Returned "unused").

Definition w_store_down : World :=
  constant_world (Returned (mkQueryDetails "Neutral" "General"))
    (Returned "We are open from 9 to 6, Monday to Friday.")
    mongo_env (Raised "connection refused").

Definition business_hours : State :=
  {[ "query" := "What are your business hours?" ]}.

Definition terrible_service : State :=
  {[ "query" := "Terrible service, never again." ]}.

Definition empty_query : State := {[ "query" := EmptyString ]}.

Definition thanks_positive : State :=
  {[ "query" := "Thanks a lot!"; "sentiment" := "Positive" ]}.

Definition refund_negative : State :=
  {[ "query" := "Where is my refund?"; "sentiment" := "Negative" ]}.

Definition broken_negative : State :=
  {[ "query" := "It broke again."; "category" := "Technical";
     "sentiment" := "Negative" ]}.

Definition parcel : State := {[ "query" := "Where is my parcel?" ]}.

(** The state of [business_hours] once classified and answered. *)
Definition hours_answered : State :=
  {[ "query" := "What are your business hours?";
     "sentiment" := "Neutral"; "category" := "General";
     "response" := "We are open from 9 to 6, Monday to Friday." ]}.

(** ** The test cell *)

Definition queries : list string :=
  [ "So, how many days are needed to install after i confirm my booking.";
    "The delivery experience of my recent package was pretty bad. I was not expecting that.";
    "How much do i have to pay if i book my trip one month earlier, is there any discounts?";
    "What are your business hours?" ].

(** [for query in queries: run_agent(query)], from the [i]-th iteration
    on.  The external services may answer differently from one query to
    the next: [ws j] is the world during iteration [j]. *)
Fixpoint for_each_query (ws : nat → World) (i : nat) (qs : list string)
  : M unit :=
  match qs with
  | [] => mret tt
  | query :: qs' => run_agent (ws i) query;; for_each_query ws (S i) qs'
  end.

(** What the iterations from [i] on leave in the log, one after the other. *)
Fixpoint outputs_from (ws : nat → World) (i : nat) (qs : list string)
  : list event :=
  match qs with
  | [] => []
  | query :: qs' =>
      (output (run_agent (ws i) query) ++ outputs_from ws (S i) qs')%list
  end.

(** ** Auxiliary notions for the statements *)

(** The wiring of [builder] around arbitrary node functions and an
    arbitrary router. *)
Definition wired (classify escalation generation persistence : Node)
    (route : Router) : StateGraph :=
  let b := StateGraph_new in
  let b := add_node "get_sentiment_and_category" classify b in
  let b := add_node "escalate" escalation b in
  let b := add_node "handle_queries" generation b in
  let b := add_node "record_to_database" persistence b in
  let b := add_edge START "get_sentiment_and_category" b in
  let b := add_conditional_edges "get_sentiment_and_category"
             route ["escalate"; "handle_queries"] b in
  let b := add_edge "handle_queries" "record_to_database" b in
  let b := add_edge "escalate" "record_to_database" b in
  let b := add_edge "record_to_database" END b in
  b.

#[global] Instance event_eq_dec : EqDecision event.
Proof. solve_decision. Defined.

(** The four fields of [State]. *)
Definition record_fields (st : State)
  : option string * option string * option string * option string :=
  (st !! "query", st !! "category", st !! "sentiment", st !! "response").

Definition is_chain_call (ev : event) : bool :=
  match ev with ChainInvoke _ => true | _ => false end.

Definition is_llm_call (ev : event) : bool :=
  match ev with LLMInvoke _ => true | _ => false end.

Definition is_insert (ev : event) : bool :=
  match ev with InsertOne _ _ => true | _ => false end.

(** An input that already carries a sentiment and a response. *)
Definition stale_hours : State :=
  {[ "query" := "What are your business hours?";
     "sentiment" := "Negative"; "response" := "an old answer" ]}.

Definition w_no_url : World :=
  constant_world (Returned (mkQueryDetails "Neutral" "General"))
    (Returned "We are open from 9 to 6, Monday to Friday.")
    ∅ (Returned "unused").

(** The classifier answers during the first iteration and is down
    afterwards. *)
Definition ws_down_after_first (i : nat) : World :=
  match i with
  | O => w_neutral
  | S _ => w_classifier_down
  end.

(** * Proofs *)

(** Two answers to the same lookup or the same call are the same answer. *)
Ltac same_call :=
  repeat match goal with
    | H1 : ?x = Some ?a, H2 : ?x = Some ?b |- _ =>
        assert (a = b) by congruence; subst b; clear H2
    | H1 : ?x = Returned ?a, H2 : ?x = Returned ?b |- _ =>
        assert (a = b) by congruence; subst b; clear H2
    end.


(** ** Basic facts about the monad and the walk *)

Section Walk.
Context (w : World).

Lemma compile_builder : graph w = mret (builder w).
Proof. reflexivity. Qed.

Lemma successor_START (c : State) :
  successor (builder w) START c = mret "get_sentiment_and_category".
Proof. reflexivity. Qed.

Lemma successor_classify (c : State) :
  successor (builder w) "get_sentiment_and_category" c
  = (target ← route_query_from_sentiment c;
     if bool_decide (target ∈ ["escalate"; "handle_queries"])
     then mret target else raise (KeyError target)).
Proof. reflexivity. Qed.

Lemma successor_escalate (c : State) :
  successor (builder w) "escalate" c = mret "record_to_database".
Proof. reflexivity. Qed.

Lemma successor_handle_queries (c : State) :
  successor (builder w) "handle_queries" c = mret "record_to_database".
Proof. reflexivity. Qed.

Lemma successor_record (c : State) :
  successor (builder w) "record_to_database" c = mret END.
Proof. reflexivity. Qed.

Lemma walk_END (g : StateGraph) fuel (c : State) :
  walk g (S fuel) END c = mret c.
Proof. reflexivity. Qed.

Lemma walk_node (g : StateGraph) fuel cur (c : State) action :
  cur ≠ END →
  assoc cur (nodes g) = Some action →
  walk g (S fuel) cur c
  = (emit (Enter cur c);;
     update ← action c;
     next ← successor g cur (apply_writes update c);
     walk g fuel next (apply_writes update c)).
Proof.
  intros Hne Hn. simpl. destruct (decide (cur = END)); [done|].
  rewrite Hn. reflexivity.
Qed.
End Walk.

(** From here on reduction goes through the lemmas, one call at a time. *)
#[local] Arguments walk : simpl never.
#[local] Arguments successor : simpl never.
#[local] Arguments get_sentiment_and_category : simpl never.
#[local] Arguments route_query_from_sentiment : simpl never.
#[local] Arguments escalate : simpl never.
#[local] Arguments handle_queries : simpl never.
#[local] Arguments record_to_database : simpl never.

Section Nodes.
Context (w : World).
Implicit Types s c : State.

Lemma getitem_Some c key v : c !! key = Some v → getitem c key = mret v.
Proof. unfold getitem. by intros ->. Qed.

Lemma getitem_None c key :
  c !! key = None → getitem c key = raise (KeyError key).
Proof. unfold getitem. by intros ->. Qed.

Lemma classify_missing s :
  s !! "query" = None →
  get_sentiment_and_category w s = (inl (KeyError "query"), []).
Proof.
  intros H. unfold get_sentiment_and_category.
  by rewrite (getitem_None _ _ H).
Qed.

Lemma classify_raises s q e :
  s !! "query" = Some q → chain_invoke w q = Raised e →
  get_sentiment_and_category w s = (inl (Failure e), [ChainInvoke q]).
Proof.
  intros H He. unfold get_sentiment_and_category.
  rewrite (getitem_Some _ _ _ H). cbn. by rewrite He.
Qed.

Lemma classify_returns s q qd :
  s !! "query" = Some q → chain_invoke w q = Returned qd →
  get_sentiment_and_category w s
  = (inr (Some {[ "sentiment" := sentiment qd; "category" := category qd ]}),
     [ChainInvoke q]).
Proof.
  intros H Hqd. unfold get_sentiment_and_category.
  rewrite (getitem_Some _ _ _ H). cbn. by rewrite Hqd.
Qed.

Lemma route_missing c :
  c !! "sentiment" = None →
  route_query_from_sentiment c = (inl (KeyError "sentiment"), []).
Proof.
  intros H. unfold route_query_from_sentiment.
  by rewrite (getitem_None _ _ H).
Qed.

Lemma route_Negative c :
  c !! "sentiment" = Some "Negative" →
  route_query_from_sentiment c = (inr "escalate", []).
Proof.
  intros H. unfold route_query_from_sentiment.
  by rewrite (getitem_Some _ _ _ H).
Qed.

Lemma route_other c v :
  c !! "sentiment" = Some v → v ≠ "Negative" →
  route_query_from_sentiment c = (inr "handle_queries", []).
Proof.
  intros H Hv. unfold route_query_from_sentiment.
  rewrite (getitem_Some _ _ _ H). cbn. by rewrite decide_False.
Qed.

Lemma generate_raises c cat q e :
  c !! "category" = Some cat → c !! "query" = Some q →
  llm_invoke w (prompt_for cat q) = Raised e →
  handle_queries w c = (inl (Failure e), [LLMInvoke (prompt_for cat q)]).
Proof.
  intros Hc Hq He. unfold handle_queries.
  rewrite (getitem_Some _ _ _ Hc), (getitem_Some _ _ _ Hq). cbn.
  fold (prompt_for cat q). by rewrite He.
Qed.

Lemma generate_returns c cat q r :
  c !! "category" = Some cat → c !! "query" = Some q →
  llm_invoke w (prompt_for cat q) = Returned r →
  handle_queries w c
  = (inr (Some {[ "response" := r ]}), [LLMInvoke (prompt_for cat q)]).
Proof.
  intros Hc Hq Hr. unfold handle_queries.
  rewrite (getitem_Some _ _ _ Hc), (getitem_Some _ _ _ Hq). cbn.
  fold (prompt_for cat q). by rewrite Hr.
Qed.

Lemma record_cases c : record_case w c (record_to_database w c).
Proof.
  unfold record_to_database, record_to_database_try.
  destruct (environ w !! "MONGO_URL") as [url|] eqn:Hurl.
  - rewrite (getitem_Some _ _ _ Hurl). cbn.
    destruct (insert_one w url c) as [[e|x] c'] eqn:Hins; cbn.
    + by eapply record_store_raises.
    + by eapply record_stored.
  - rewrite (getitem_None _ _ Hurl). cbn. by apply record_no_url.
Qed.

Lemma record_value c : value (record_to_database w c) = inr None.
Proof. by destruct (record_cases c). Qed.

Lemma classified_sentiment qd s :
  classified qd s !! "sentiment" = Some (sentiment qd).
Proof.
  unfold classified. apply lookup_union_Some_l. by rewrite lookup_insert_eq.
Qed.

Lemma classified_category qd s :
  classified qd s !! "category" = Some (category qd).
Proof.
  unfold classified. apply lookup_union_Some_l.
  rewrite lookup_insert_ne by done. by rewrite lookup_singleton_eq.
Qed.

Lemma classified_other qd s key :
  key ≠ "sentiment" → key ≠ "category" →
  classified qd s !! key = s !! key.
Proof.
  intros H1 H2. unfold classified. apply lookup_union_r.
  rewrite lookup_insert_ne by done. by rewrite lookup_singleton_ne.
Qed.

Lemma answered_response r c : answered r c !! "response" = Some r.
Proof.
  unfold answered. apply lookup_union_Some_l. by rewrite lookup_singleton_eq.
Qed.

Lemma answered_other r c key :
  key ≠ "response" → answered r c !! key = c !! key.
Proof.
  intros H. unfold answered. apply lookup_union_r.
  by rewrite lookup_singleton_ne.
Qed.
End Nodes.

(** ** The five ways through the graph *)

Section Runs.
Context (w : World).
Implicit Types s c : State.

Lemma graph_invoke_start s :
  graph_invoke w s
  = walk (builder w) recursion_limit "get_sentiment_and_category" s.
Proof.
  unfold graph_invoke. rewrite compile_builder. cbn.
  destruct (invoke (builder w) s) as [r out] eqn:E.
  unfold invoke in E. rewrite successor_START in E. cbn in E.
  destruct (walk _ _ _ s) as [r' out']. by simplify_eq.
Qed.

(** Entering the persistence step ends the walk with the channels as
    they are. *)
Lemma walk_record fuel c :
  walk (builder w) (S (S fuel)) "record_to_database" c
  = (inr c, Enter "record_to_database" c
            :: output (record_to_database w c)).
Proof.
  erewrite walk_node; [|done|reflexivity].
  destruct (record_to_database w c) as [r out] eqn:E.
  pose proof (record_value w c) as Hv. rewrite E in Hv. cbn in Hv. subst r.
  cbn. rewrite successor_record. cbn. rewrite walk_END. cbn.
  by rewrite app_nil_r.
Qed.

Lemma walk_cases fuel s :
  run_case w s
    (walk (builder w) (S (S (S (S fuel)))) "get_sentiment_and_category" s).
Proof.
  erewrite walk_node; [|done|reflexivity].
  destruct (s !! "query") as [q|] eqn:Hq.
  2:{ rewrite (classify_missing w s Hq). cbn. by apply run_missing_query. }
  destruct (chain_invoke w q) as [e|qd] eqn:Hqd.
  { rewrite (classify_raises w s q e Hq Hqd). cbn.
    by eapply run_classifier_raises. }
  rewrite (classify_returns w s q qd Hq Hqd). cbn.
  fold (classified qd s). rewrite successor_classify.
  pose proof (classified_sentiment qd s) as Hs.
  assert (classified qd s !! "query" = Some q) as Hq'
    by (by rewrite classified_other).
  destruct (decide (sentiment qd = "Negative")) as [Hneg|Hneg].
  - rewrite Hneg in Hs. rewrite (route_Negative _ Hs). cbn.
    rewrite bool_decide_eq_true_2 by repeat constructor. cbn.
    erewrite walk_node; [|done|reflexivity].
    unfold escalate. cbn. rewrite successor_escalate. cbn.
    fold (answered escalation_message (classified qd s)).
    rewrite walk_record. cbn. by eapply run_escalated.
  - rewrite (route_other _ _ Hs Hneg). cbn.
    rewrite bool_decide_eq_true_2 by repeat constructor. cbn.
    erewrite walk_node; [|done|reflexivity].
    destruct (llm_invoke w (prompt_for (category qd) q)) as [e|r] eqn:Hr.
    + rewrite (generate_raises w _ _ _ e (classified_category qd s) Hq' Hr).
      cbn. by eapply run_generator_raises.
    + rewrite (generate_returns w _ _ _ r (classified_category qd s) Hq' Hr).
      cbn. rewrite successor_handle_queries. cbn.
      fold (answered r (classified qd s)).
      rewrite walk_record. cbn. by eapply run_answered.
Qed.

Lemma run_cases s : run_case w s (graph_invoke w s).
Proof. rewrite graph_invoke_start. apply walk_cases. Qed.

Lemma run_case_functional s r1 r2 :
  run_case w s r1 → run_case w s r2 → r1 = r2.
Proof.
  destruct 1; destruct 1; same_call; try congruence; same_call;
    congruence.
Qed.

Lemma run_escalates s q qd :
  s !! "query" = Some q →
  chain_invoke w q = Returned qd →
  sentiment qd = "Negative" →
  graph_invoke w s
  = (inr (answered escalation_message (classified qd s)),
     [Enter "get_sentiment_and_category" s; ChainInvoke q;
      Enter "escalate" (classified qd s);
      Enter "record_to_database"
        (answered escalation_message (classified qd s))]
     ++ output (record_to_database w
                  (answered escalation_message (classified qd s))))%list.
Proof.
  intros Hq Hqd Hneg.
  destruct (run_cases s); same_call; try congruence; same_call; done.
Qed.

Lemma run_answers s q qd r :
  s !! "query" = Some q →
  chain_invoke w q = Returned qd →
  sentiment qd ≠ "Negative" →
  llm_invoke w (prompt_for (category qd) q) = Returned r →
  graph_invoke w s
  = (inr (answered r (classified qd s)),
     [Enter "get_sentiment_and_category" s; ChainInvoke q;
      Enter "handle_queries" (classified qd s);
      LLMInvoke (prompt_for (category qd) q);
      Enter "record_to_database" (answered r (classified qd s))]
     ++ output (record_to_database w (answered r (classified qd s))))%list.
Proof.
  intros Hq Hqd Hneg Hr.
  destruct (run_cases s); same_call; try congruence; same_call; done.
Qed.

Lemma run_generator_fails s q qd msg :
  s !! "query" = Some q →
  chain_invoke w q = Returned qd →
  sentiment qd ≠ "Negative" →
  llm_invoke w (prompt_for (category qd) q) = Raised msg →
  graph_invoke w s
  = (inl (Failure msg),
     [Enter "get_sentiment_and_category" s; ChainInvoke q;
      Enter "handle_queries" (classified qd s);
      LLMInvoke (prompt_for (category qd) q)]).
Proof.
  intros Hq Hqd Hneg Hr.
  destruct (run_cases s); same_call; try congruence; same_call;
    congruence.
Qed.
End Runs.

(** The step limit: three nodes and the arrival at [END] take four
    units, so the notebook's run raises under a limit of three, after
    its three nodes, and returns under four. *)
Example limit_three_is_one_short :
  value (walk (builder w_neutral) 3 "get_sentiment_and_category"
           business_hours)
  = inl GraphRecursionError
  ∧ steps (output (walk (builder w_neutral) 3 "get_sentiment_and_category"
                     business_hours))
    = ["get_sentiment_and_category"; "handle_queries"; "record_to_database"]
  ∧ value (walk (builder w_neutral) 4 "get_sentiment_and_category"
             business_hours)
    = inr hours_answered.
Proof. repeat split; vm_compute; reflexivity. Qed.

(** ** The scenarios of the notebook's test cell *)

Example scenario_general_neutral :
  value (graph_invoke w_neutral business_hours) = inr hours_answered.
Proof. vm_compute. reflexivity. Qed.

(** The collection adds an ["_id"] to the dictionary the persistence step
    holds; the state the run returns has none. *)
Example payload_change_stays_in_the_node :
  value (record_to_database_try w_neutral hours_answered)
  = inr (<[ "_id" := "67ece14ccbd07acc4db059db" ]> hours_answered)
  ∧ value (graph_invoke w_neutral business_hours) = inr hours_answered
  ∧ hours_answered !! "_id" = None.
Proof. repeat split; vm_compute; reflexivity. Qed.

Example scenario_negative :
  value (graph_invoke w_negative terrible_service)
  = inr {[ "query" := "Terrible service, never again.";
           "sentiment" := "Negative"; "category" := "General";
           "response" := escalation_message ]}.
Proof. vm_compute. reflexivity. Qed.

(** ** Facts about traces *)

Section Traces.
Context (w : World).
Implicit Types s c : State.

Lemma steps_app (a b : list event) : steps (a ++ b) = (steps a ++ steps b)%list.
Proof. apply omap_app. Qed.

Lemma record_output_case c :
  (∃ msg, output (record_to_database w c) = [Printed msg])
  ∨ (∃ url msg, output (record_to_database w c) = [InsertOne url c; Printed msg]).
Proof. destruct (record_cases w c); cbn; eauto. Qed.

Lemma record_steps c : steps (output (record_to_database w c)) = [].
Proof. by destruct (record_cases w c). Qed.

Lemma record_no_enter c node c' :
  Enter node c' ∉ output (record_to_database w c).
Proof.
  destruct (record_output_case c) as [[msg ->]|(url & msg & ->)];
    rewrite ?elem_of_cons, elem_of_nil; intuition congruence.
Qed.

Lemma record_no_model_call c ev :
  ev ∈ output (record_to_database w c) →
  (∀ p, ev ≠ LLMInvoke p) ∧ (∀ q, ev ≠ ChainInvoke q).
Proof.
  destruct (record_output_case c) as [[msg ->]|(url & msg & ->)];
    rewrite ?elem_of_cons, elem_of_nil; intuition congruence.
Qed.

(** The nodes a run enters, by outcome. *)
Lemma run_steps s :
  match value (graph_invoke w s) with
  | inr _ =>
      steps (output (graph_invoke w s))
      = ["get_sentiment_and_category"; "escalate"; "record_to_database"]
      ∨ steps (output (graph_invoke w s))
      = ["get_sentiment_and_category"; "handle_queries"; "record_to_database"]
  | inl _ =>
      steps (output (graph_invoke w s)) = ["get_sentiment_and_category"]
      ∨ steps (output (graph_invoke w s))
      = ["get_sentiment_and_category"; "handle_queries"]
  end.
Proof.
  destruct (run_cases w s); cbn [value output fst snd];
    rewrite ?steps_app, ?record_steps; cbn; auto.
Qed.
End Traces.

(** ** The router *)

(** C1.  The router looks at the sentiment field and nothing else: on a
    state whose sentiment is [v] it returns, without raising and without
    any effect, "escalate" when [v] is "Negative" and "handle_queries"
    for every other [v]. *)
Theorem route_query_from_sentiment_policy (state : State) (v : string) :
  state !! "sentiment" = Some v →
  route_query_from_sentiment state
  = (inr (if decide (v = "Negative") then "escalate" else "handle_queries"),
     []).
Proof.
  intros Hv. destruct (decide (v = "Negative")) as [->|Hne].
  - by apply route_Negative.
  - by eapply route_other.
Qed.

Lemma route_query_from_sentiment_policy_witness :
  thanks_positive !! "sentiment" = Some "Positive"
  ∧ route_query_from_sentiment thanks_positive = (inr "handle_queries", []).
Proof.
  split; [reflexivity|].
  exact (route_query_from_sentiment_policy thanks_positive "Positive" eq_refl).
Defined.

(** C9.  Routing is deterministic and has no hidden state: two states
    with the same sentiment entry get the same answer from the router,
    whatever their other fields. *)
Theorem routing_deterministic (s1 s2 : State) :
  s1 !! "sentiment" = s2 !! "sentiment" →
  route_query_from_sentiment s1 = route_query_from_sentiment s2.
Proof.
  intros H. unfold route_query_from_sentiment, getitem. by rewrite H.
Qed.

Lemma routing_deterministic_witness :
  refund_negative !! "sentiment" = broken_negative !! "sentiment"
  ∧ route_query_from_sentiment refund_negative
    = route_query_from_sentiment broken_negative.
Proof.
  split; [reflexivity|].
  exact (routing_deterministic refund_negative broken_negative eq_refl).
Defined.

(** ** Escalation *)

Lemma not_in_steps (name : string) (l : list string) :
  bool_decide (name ∈ l) = false → name ∉ l.
Proof. intros H. by apply bool_decide_eq_false in H. Qed.

Ltac absurd_step :=
  match goal with
  | H : ?name ∈ ?l |- _ => exfalso; exact (not_in_steps name l eq_refl H)
  end.

(** C2.  A run whose classification yields the sentiment "Negative"
    completes, and its final response is exactly the fixed escalation
    message; the run enters "escalate", never enters "handle_queries" and
    never calls the generating model.  In no run at all are both the
    escalation step and the response-generation step entered. *)
Theorem negative_sentiment_is_escalated (w : World) (s : State)
    (q : string) (qd : QueryDetails) :
  s !! "query" = Some q →
  chain_invoke w q = Returned qd →
  sentiment qd = "Negative" →
  (∃ final, value (graph_invoke w s) = inr final
            ∧ final !! "response" = Some escalation_message)
  ∧ "escalate" ∈ steps (output (graph_invoke w s))
  ∧ ("handle_queries" ∉ steps (output (graph_invoke w s)))
  ∧ (∀ p, LLMInvoke p ∉ output (graph_invoke w s))
  ∧ (∀ w' s', ¬ ("escalate" ∈ steps (output (graph_invoke w' s'))
                 ∧ "handle_queries" ∈ steps (output (graph_invoke w' s')))).
Proof.
  intros Hq Hqd Hneg.
  rewrite (run_escalates w s q qd Hq Hqd Hneg). cbn [value output fst snd].
  rewrite steps_app, record_steps. cbn.
  split; [|split; [|split; [|split]]].
  - eexists. split; [done|]. apply answered_response.
  - rewrite !elem_of_cons. auto.
  - by apply not_in_steps.
  - intros p. rewrite !elem_of_cons.
    intros [?|[?|[?|[?|Hin]]]]; try discriminate.
    by destruct (record_no_model_call w _ _ Hin) as [H _]; eapply H.
  - intros w' s' [He Hh].
    pose proof (run_steps w' s') as Hst.
    destruct (value (graph_invoke w' s')); destruct Hst as [Hst|Hst];
      rewrite Hst in He, Hh;
      absurd_step.
Qed.

Lemma negative_sentiment_is_escalated_witness :
  terrible_service !! "query" = Some "Terrible service, never again."
  ∧ sentiment (mkQueryDetails "Negative" "General") = "Negative"
  ∧ (∃ final, value (graph_invoke w_negative terrible_service) = inr final
              ∧ final !! "response" = Some escalation_message)
  ∧ ("handle_queries"
     ∉ steps (output (graph_invoke w_negative terrible_service))).
Proof.
  split; [reflexivity|]. split; [reflexivity|].
  destruct (negative_sentiment_is_escalated w_negative terrible_service
              "Terrible service, never again."
              (mkQueryDetails "Negative" "General")
              eq_refl eq_refl eq_refl) as (H1 & _ & H2 & _).
  exact (conj H1 H2).
Defined.

(** ** Classification *)

(** C3, as the code has it.  Nothing checks what the classifier returns:
    whatever two strings come back are written to the state unchanged,
    the router is consulted on them (any sentiment other than "Negative"
    leads to "handle_queries"), and the run can fail afterwards only
    because the generating model raises. *)
Theorem classification_is_not_validated (w : World) (s : State)
    (q : string) (qd : QueryDetails) :
  s !! "query" = Some q →
  chain_invoke w q = Returned qd →
  Enter (if decide (sentiment qd = "Negative")
         then "escalate" else "handle_queries") (classified qd s)
    ∈ output (graph_invoke w s)
  ∧ classified qd s !! "sentiment" = Some (sentiment qd)
  ∧ classified qd s !! "category" = Some (category qd)
  ∧ (∀ e, value (graph_invoke w s) = inl e →
       sentiment qd ≠ "Negative"
       ∧ ∃ msg, llm_invoke w (prompt_for (category qd) q) = Raised msg
                ∧ e = Failure msg)
  ∧ (∀ final, value (graph_invoke w s) = inr final →
       final !! "sentiment" = Some (sentiment qd)
       ∧ final !! "category" = Some (category qd)).
Proof.
  intros Hq Hqd.
  split; [|split; [apply classified_sentiment|split; [apply classified_category|]]].
  - destruct (decide (sentiment qd = "Negative")) as [Hneg|Hneg].
    + rewrite (run_escalates w s q qd Hq Hqd Hneg). cbn [output snd].
      rewrite elem_of_app, !elem_of_cons. auto.
    + destruct (llm_invoke w (prompt_for (category qd) q)) as [msg|r] eqn:Hr.
      * rewrite (run_generator_fails w s q qd msg Hq Hqd Hneg Hr).
        cbn [output snd]. rewrite !elem_of_cons. auto.
      * rewrite (run_answers w s q qd r Hq Hqd Hneg Hr). cbn [output snd].
        rewrite elem_of_app, !elem_of_cons. auto.
  - destruct (decide (sentiment qd = "Negative")) as [Hneg|Hneg].
    + rewrite (run_escalates w s q qd Hq Hqd Hneg). cbn [value fst].
      split; [intros e; discriminate|].
      intros final [= <-].
      rewrite !answered_other by done.
      split; [apply classified_sentiment|apply classified_category].
    + destruct (llm_invoke w (prompt_for (category qd) q)) as [msg|r] eqn:Hr.
      * rewrite (run_generator_fails w s q qd msg Hq Hqd Hneg Hr).
        cbn [value fst]. split; [|intros final; discriminate].
        intros e [= <-]. eauto.
      * rewrite (run_answers w s q qd r Hq Hqd Hneg Hr). cbn [value fst].
        split; [intros e; discriminate|].
        intros final [= <-].
        rewrite !answered_other by done.
        split; [apply classified_sentiment|apply classified_category].
Qed.

Lemma classification_is_not_validated_witness :
  parcel !! "query" = Some "Where is my parcel?"
  ∧ Enter "handle_queries"
      (classified (mkQueryDetails "Neutral" "Shipping") parcel)
    ∈ output (graph_invoke w_shipping parcel).
Proof.
  split; [reflexivity|].
  exact (proj1 (classification_is_not_validated w_shipping parcel
                  "Where is my parcel?" (mkQueryDetails "Neutral" "Shipping")
                  eq_refl eq_refl)).
Defined.

(** C3, counterexample.  With the classifier answering category
    "Shipping", outside the three categories, the run is routed to
    "handle_queries" and completes with that category in its state. *)
Lemma out_of_domain_category_is_accepted :
  graph_invoke w_shipping parcel
  = (inr {[ "query" := "Where is my parcel?";
            "sentiment" := "Neutral"; "category" := "Shipping";
            "response" := "Your parcel is on its way." ]},
     [Enter "get_sentiment_and_category" parcel;
      ChainInvoke "Where is my parcel?";
      Enter "handle_queries"
        (classified (mkQueryDetails "Neutral" "Shipping") parcel);
      LLMInvoke (prompt_for "Shipping" "Where is my parcel?");
      Enter "record_to_database"
        (answered "Your parcel is on its way."
           (classified (mkQueryDetails "Neutral" "Shipping") parcel));
      InsertOne "mongodb://localhost:27017"
        (answered "Your parcel is on its way."
           (classified (mkQueryDetails "Neutral" "Shipping") parcel));
      Printed ["Inserted document ID: 67ece141cbd07acc4db059d5"]]).
Proof. vm_compute. reflexivity. Qed.

(** ** Persistence *)

Section Persistence.
Context (w : World).
Implicit Types s c : State.

Lemma record_reports c e :
  value (record_to_database_try w c) = inl e →
  record_to_database w c
  = (inr None,
     output (record_to_database_try w c)
     ++ [Printed ["An error occurred: "; str e]])%list.
Proof.
  unfold record_to_database.
  destruct (record_to_database_try w c) as [[e'|c'] out]; cbn; [|done].
  intros [= ->]. by rewrite app_nil_r.
Qed.

Lemma record_succeeds c c' :
  value (record_to_database_try w c) = inr c' →
  record_to_database w c = (inr None, output (record_to_database_try w c)).
Proof.
  unfold record_to_database.
  destruct (record_to_database_try w c) as [[e'|c''] out]; cbn; [done|].
  intros _. by rewrite !app_nil_r.
Qed.

Lemma entered_state node node' c c' :
  Enter node c = Enter node' c' → c = c'.
Proof. congruence. Qed.

(** Once the walk enters the persistence step on [c], the run returns
    [c] and what remains of the trace is the output of that step. *)
Lemma reach_record s c :
  Enter "record_to_database" c ∈ output (graph_invoke w s) →
  value (graph_invoke w s) = inr c
  ∧ ∃ pre, output (graph_invoke w s)
           = (pre ++ Enter "record_to_database" c
                     :: output (record_to_database w c))%list.
Proof.
  destruct (run_cases w s); cbn [value output fst snd];
    rewrite ?elem_of_app, ?elem_of_cons, ?elem_of_nil;
    intros Hin;
    repeat match type of Hin with _ ∨ _ => destruct Hin as [Hin|Hin] end;
    try discriminate; try contradiction;
    try (by destruct (record_no_enter w _ _ _ Hin)).
  - pose proof (entered_state _ _ _ _ Hin) as Hc. subst c.
    split; [done|]. by eexists [_; _; _].
  - pose proof (entered_state _ _ _ _ Hin) as Hc. subst c.
    split; [done|]. by eexists [_; _; _; _].
Qed.

Lemma completed_reaches_record s final :
  value (graph_invoke w s) = inr final →
  Enter "record_to_database" final ∈ output (graph_invoke w s).
Proof.
  destruct (run_cases w s); cbn [value output fst snd];
    intros [= <-]; rewrite elem_of_app, !elem_of_cons; auto 10.
Qed.

Lemma value_store_independent env ins s :
  value (graph_invoke (with_store w env ins) s) = value (graph_invoke w s).
Proof.
  destruct (run_cases w s);
    destruct (run_cases (with_store w env ins) s);
    cbn [value fst chain_invoke llm_invoke with_store] in *;
    same_call; try congruence; same_call; congruence.
Qed.
End Persistence.

(** C4.  A failure while recording is contained: when the walk has
    reached the persistence step on state [c] and the recording raises
    [e], the run still returns [c] to the caller; it returns the same [c]
    with any other environment and collection, in particular with one
    whose write succeeds; and the failure shows only as a printed line. *)
Theorem store_failure_is_contained (w : World) (s c : State) (e : exn) :
  Enter "record_to_database" c ∈ output (graph_invoke w s) →
  value (record_to_database_try w c) = inl e →
  value (graph_invoke w s) = inr c
  ∧ (∀ env ins, value (graph_invoke (with_store w env ins) s) = inr c)
  ∧ Printed ["An error occurred: "; str e] ∈ output (graph_invoke w s).
Proof.
  intros Hin He. destruct (reach_record w s c Hin) as [Hv [pre Hout]].
  split; [done|]. split.
  - intros env ins. by rewrite value_store_independent.
  - rewrite Hout, (record_reports w c e He). cbn [output snd].
    rewrite elem_of_app, elem_of_cons, elem_of_app, elem_of_cons.
    auto.
Qed.

Lemma store_failure_is_contained_witness :
  Enter "record_to_database" hours_answered
    ∈ output (graph_invoke w_store_down business_hours)
  ∧ value (record_to_database_try w_store_down hours_answered)
    = inl (Failure "connection refused")
  ∧ value (graph_invoke w_store_down business_hours) = inr hours_answered
  ∧ value (graph_invoke w_neutral business_hours) = inr hours_answered.
Proof.
  assert (Hin : Enter "record_to_database" hours_answered
                ∈ output (graph_invoke w_store_down business_hours)).
  { apply (completed_reaches_record w_store_down business_hours).
    vm_compute. reflexivity. }
  assert (He : value (record_to_database_try w_store_down hours_answered)
               = inl (Failure "connection refused")).
  { vm_compute. reflexivity. }
  destruct (store_failure_is_contained w_store_down business_hours
              hours_answered _ Hin He) as (H1 & H2 & _).
  split; [exact Hin|]. split; [exact He|]. split; [exact H1|].
  exact (H2 mongo_env (insert_one w_neutral)).
Defined.

(** ** Shape of a run *)

Section Shape.
Context (w : World).
Implicit Types s c : State.

Lemma terminal_record : terminal (builder w) "record_to_database" = true.
Proof. reflexivity. Qed.

(** From a state without response, a state the walk enters a node on
    has a response exactly when that node is terminal. *)
Lemma response_iff_terminal s node c :
  s !! "response" = None →
  Enter node c ∈ output (graph_invoke w s) →
  is_Some (c !! "response") ↔ terminal (builder w) node = true.
Proof.
  intros Hs.
  assert (∀ qd, classified qd s !! "response" = None) as Hcl
    by (intros qd; by rewrite classified_other).
  destruct (run_cases w s); cbn [output snd];
    rewrite ?elem_of_app, ?elem_of_cons, ?elem_of_nil;
    intros Hin;
    repeat match type of Hin with _ ∨ _ => destruct Hin as [Hin|Hin] end;
    try discriminate; try contradiction;
    try (by destruct (record_no_enter w _ _ _ Hin));
    injection Hin as -> ->;
    rewrite ?answered_response, ?Hcl, ?Hs, <- ?not_eq_None_Some;
    cbn; split; (done || eauto).
Qed.

(** The response of a completed run is the escalation message or what
    the generating model returned. *)
Lemma completed_response s final :
  value (graph_invoke w s) = inr final →
  ∃ r, final !! "response" = Some r
       ∧ (r = escalation_message ∨ ∃ p, llm_invoke w p = Returned r).
Proof.
  destruct (run_cases w s); cbn [value fst]; intros [= <-];
    eexists; (split; [apply answered_response|eauto]).
Qed.
End Shape.

(** C5.  In the run [run_agent] starts for a query: a state on which a
    node is entered carries a response exactly when that node is the
    terminal one; and when the run completes, the final state carries a
    response (the escalation message, or the very string the generating
    model returned), the terminal persistence step was entered exactly
    once, and it was the last step. *)
Theorem response_set_iff_terminal_reached (w : World) (query : string) :
  (∀ node c,
     Enter node c ∈ output (graph_invoke w {[ "query" := query ]}) →
     is_Some (c !! "response") ↔ terminal (builder w) node = true)
  ∧ (∀ final,
       value (graph_invoke w {[ "query" := query ]}) = inr final →
       (∃ r, final !! "response" = Some r
             ∧ (r = escalation_message ∨ ∃ p, llm_invoke w p = Returned r))
       ∧ List.filter (terminal (builder w))
           (steps (output (graph_invoke w {[ "query" := query ]})))
         = ["record_to_database"]
       ∧ last (steps (output (graph_invoke w {[ "query" := query ]})))
         = Some "record_to_database").
Proof.
  split.
  - intros node c. apply response_iff_terminal. by rewrite lookup_singleton_ne.
  - intros final Hfinal.
    pose proof (run_steps w {[ "query" := query ]}) as Hst.
    rewrite Hfinal in Hst. split; [|by destruct Hst as [-> | ->]].
    by apply (completed_response w {[ "query" := query ]}).
Qed.

Lemma response_set_iff_terminal_reached_witness :
  value (graph_invoke w_neutral {[ "query" := "What are your business hours?" ]})
  = inr hours_answered
  ∧ (∃ r, hours_answered !! "response" = Some r
          ∧ (r = escalation_message
             ∨ ∃ p, llm_invoke w_neutral p = Returned r))
  ∧ last (steps (output (graph_invoke w_neutral
                           {[ "query" := "What are your business hours?" ]})))
    = Some "record_to_database".
Proof.
  assert (H : value (graph_invoke w_neutral
                       {[ "query" := "What are your business hours?" ]})
              = inr hours_answered) by (vm_compute; reflexivity).
  split; [exact H|].
  destruct (proj2 (response_set_iff_terminal_reached w_neutral
                     "What are your business hours?") hours_answered H)
    as (H1 & _ & H3).
  exact (conj H1 H3).
Defined.

(** ** The query *)

(** C6, counterexample.  Started on the empty query, the agent
    classifies it, answers it, records it and returns as for any other
    query. *)
Lemma empty_query_is_answered :
  value (graph_invoke w_neutral empty_query)
  = inr {[ "query" := EmptyString;
           "sentiment" := "Neutral"; "category" := "General";
           "response" := "We are open from 9 to 6, Monday to Friday." ]}
  ∧ value (run_agent w_neutral EmptyString) = inr tt.
Proof. split; vm_compute; reflexivity. Qed.

(** C6, as the code has it.  There is no check at entry.  A state with
    no query at all makes the classification step raise [KeyError] on
    its first line, before any external call, and the run ends with that
    error.  A state whose query is the empty string is classified like
    any other: the first thing the run does is call the classifier on
    the empty string, and it can only fail with an error an external
    service raised. *)
Theorem query_is_not_checked_at_entry (w : World) (s : State) :
  (s !! "query" = None →
   graph_invoke w s
   = (inl (KeyError "query"), [Enter "get_sentiment_and_category" s]))
  ∧ (s !! "query" = Some EmptyString →
     (∃ rest, output (graph_invoke w s)
              = Enter "get_sentiment_and_category" s
                :: ChainInvoke EmptyString :: rest)
     ∧ (∀ e, value (graph_invoke w s) = inl e →
          ∃ msg, e = Failure msg
                 ∧ (chain_invoke w EmptyString = Raised msg
                    ∨ ∃ p, llm_invoke w p = Raised msg))).
Proof.
  split; intros Hq.
  - destruct (run_cases w s); congruence.
  - destruct (run_cases w s); same_call; try congruence;
      cbn [value output fst snd]; (split; [eauto|]);
      intros e' [= <-]; eauto.
Qed.

Lemma query_is_not_checked_at_entry_witness :
  empty_query !! "query" = Some EmptyString
  ∧ ∃ rest, output (graph_invoke w_neutral empty_query)
            = Enter "get_sentiment_and_category" empty_query
              :: ChainInvoke EmptyString :: rest.
Proof.
  split; [reflexivity|].
  exact (proj1 (proj2 (query_is_not_checked_at_entry w_neutral empty_query)
                  eq_refl)).
Defined.

Section Updates.
Context (w : World).
Implicit Types s c : State.

(** What the four nodes can return. *)
Lemma node_update name action c update :
  assoc name (nodes (builder w)) = Some action →
  value (action c) = inr update →
  (∃ qd, update = Some {[ "sentiment" := sentiment qd;
                          "category" := category qd ]})
  ∨ (∃ r, update = Some {[ "response" := r ]})
  ∨ (name = "record_to_database" ∧ update = None).
Proof.
  intros Hname. cbn in Hname.
  repeat case_decide; simplify_eq.
  - destruct (c !! "query") as [q|] eqn:Hq.
    2:{ by rewrite (classify_missing w c Hq). }
    destruct (chain_invoke w q) as [msg|qd] eqn:Hqd.
    { by rewrite (classify_raises w c q msg Hq Hqd). }
    rewrite (classify_returns w c q qd Hq Hqd). cbn. intros [= <-]. eauto.
  - unfold escalate. cbn. intros [= <-]. eauto.
  - destruct (c !! "category") as [cat|] eqn:Hcat.
    2:{ unfold handle_queries. by rewrite (getitem_None _ _ Hcat). }
    destruct (c !! "query") as [q|] eqn:Hq.
    2:{ unfold handle_queries.
        by rewrite (getitem_Some _ _ _ Hcat), (getitem_None _ _ Hq). }
    destruct (llm_invoke w (prompt_for cat q)) as [msg|r] eqn:Hr.
    { by rewrite (generate_raises w c cat q msg Hcat Hq Hr). }
    rewrite (generate_returns w c cat q r Hcat Hq Hr). cbn.
    intros [= <-]. eauto.
  - rewrite record_value. intros [= <-]. auto.
Qed.

Lemma completed_query s final :
  value (graph_invoke w s) = inr final → final !! "query" = s !! "query".
Proof.
  destruct (run_cases w s); cbn [value fst]; intros [= <-];
    rewrite answered_other by done; by rewrite classified_other.
Qed.
End Updates.

(** C7.  No node writes the query: the update a node of the graph
    returns, if any, has no "query" key; and the state a run returns has
    the query entry of the state it was started on. *)
Theorem query_is_never_written (w : World) :
  (∀ name action c update,
     assoc name (nodes (builder w)) = Some action →
     value (action c) = inr (Some update) →
     update !! "query" = None)
  ∧ (∀ s final,
       value (graph_invoke w s) = inr final →
       final !! "query" = s !! "query").
Proof.
  split.
  - intros name action c update Hname Hv.
    destruct (node_update w name action c _ Hname Hv)
      as [[qd [= ->]]|[[r [= ->]]|[_ [=]]]].
    + rewrite lookup_insert_ne by done. by rewrite lookup_singleton_ne.
    + by rewrite lookup_singleton_ne.
  - apply completed_query.
Qed.

Lemma query_is_never_written_witness :
  value (graph_invoke w_negative terrible_service)
  = inr (answered escalation_message
           (classified (mkQueryDetails "Negative" "General") terrible_service))
  ∧ answered escalation_message
      (classified (mkQueryDetails "Negative" "General") terrible_service)
    !! "query"
    = terrible_service !! "query".
Proof.
  assert (H : value (graph_invoke w_negative terrible_service)
              = inr (answered escalation_message
                       (classified (mkQueryDetails "Negative" "General")
                          terrible_service)))
    by (vm_compute; reflexivity).
  split; [exact H|].
  exact (proj2 (query_is_never_written w_negative) terrible_service _ H).
Defined.

(** C10.  The persistence step returns no update, whether the recording
    succeeds or raises; so the state a completed run returns is the one
    the persistence step was entered on, which is the state the
    response-writing step (escalate or handle_queries) was entered on
    with that step's update written over it. *)
Theorem record_to_database_writes_nothing (w : World) :
  (∀ c, value (record_to_database w c) = inr None)
  ∧ (∀ s final,
       value (graph_invoke w s) = inr final →
       Enter "record_to_database" final ∈ output (graph_invoke w s)
       ∧ ∃ name action prev update,
           (name = "escalate" ∨ name = "handle_queries")
           ∧ assoc name (nodes (builder w)) = Some action
           ∧ Enter name prev ∈ output (graph_invoke w s)
           ∧ value (action prev) = inr (Some update)
           ∧ final = apply_writes (Some update) prev).
Proof.
  split; [apply record_value|].
  intros s final Hfinal.
  split; [by apply completed_reaches_record|].
  destruct (run_cases w s)
    as [?|q e ? ?|q qd Hq Hqd Hneg|q qd e Hq Hqd Hneg Hr|q qd r Hq Hqd Hneg Hr];
    cbn [value output fst snd] in *; simplify_eq.
  - exists "escalate", escalate, (classified qd s),
      {[ "response" := escalation_message ]}.
    split; [auto|]. split; [reflexivity|].
    split; [rewrite elem_of_app, !elem_of_cons; auto|]. done.
  - exists "handle_queries", (handle_queries w), (classified qd s),
      {[ "response" := r ]}.
    split; [auto|]. split; [reflexivity|].
    split; [rewrite elem_of_app, !elem_of_cons; auto|].
    split; [|done].
    rewrite (generate_returns w (classified qd s) (category qd) q r); [done| |
      |done].
    + apply classified_category.
    + by rewrite classified_other.
Qed.

Lemma record_to_database_writes_nothing_witness :
  value (graph_invoke w_store_down business_hours) = inr hours_answered
  ∧ Enter "record_to_database" hours_answered
    ∈ output (graph_invoke w_store_down business_hours).
Proof.
  assert (H : value (graph_invoke w_store_down business_hours)
              = inr hours_answered) by (vm_compute; reflexivity).
  split; [exact H|].
  exact (proj1 (proj2 (record_to_database_writes_nothing w_store_down)
                  business_hours hours_answered H)).
Defined.

(** ** Termination *)

(** C8, counterexample.  When the classifier raises, the run ends in
    the classification step, after one step instead of three. *)
Lemma classifier_failure_ends_the_run :
  graph_invoke w_classifier_down business_hours
  = (inl (Failure "classifier unavailable"),
     [Enter "get_sentiment_and_category" business_hours;
      ChainInvoke "What are your business hours?"])
  ∧ steps (output (graph_invoke w_classifier_down business_hours))
    = ["get_sentiment_and_category"].
Proof. split; vm_compute; reflexivity. Qed.

Section Steps.
Context (w : World).
Implicit Types s c : State.

(** A node entered by a run, with the function the graph has under its
    name: if the function raises on the state it was entered on, the run
    ends there with that exception. *)
Lemma raising_step_ends_the_run s node c action e :
  Enter node c ∈ output (graph_invoke w s) →
  assoc node (nodes (builder w)) = Some action →
  value (action c) = inl e →
  value (graph_invoke w s) = inl e
  ∧ last (steps (output (graph_invoke w s))) = Some node.
Proof.
  destruct (run_cases w s)
    as [Hq|q e' Hq He|q qd Hq Hqd Hneg|q qd e' Hq Hqd Hneg Hr
       |q qd r Hq Hqd Hneg Hr];
    cbn [value output fst snd];
    rewrite ?steps_app, ?record_steps;
    rewrite ?elem_of_app, ?elem_of_cons, ?elem_of_nil;
    intros Hin Hnode Hval;
    repeat match type of Hin with _ ∨ _ => destruct Hin as [Hin|Hin] end;
    try discriminate; try contradiction;
    try (by destruct (record_no_enter w _ _ _ Hin));
    injection Hin as -> ->; cbn in Hnode; injection Hnode as <-;
    revert Hval;
    rewrite ?(classify_missing w s Hq), ?(classify_raises w s q e' Hq He),
      ?(classify_returns w s q qd Hq Hqd), ?record_value;
    rewrite ?(generate_raises w (classified qd s) (category qd) q e'
                (classified_category qd s)
                (eq_trans (classified_other qd s "query" ltac:(done)
                             ltac:(done)) Hq) Hr);
    rewrite ?(generate_returns w (classified qd s) (category qd) q r
                (classified_category qd s)
                (eq_trans (classified_other qd s "query" ltac:(done)
                             ltac:(done)) Hq) Hr);
    cbn; intros Hval; try discriminate; by injection Hval as <-.
Qed.

(** If every node a run enters returns, the run returns. *)
Lemma returning_steps_complete s :
  (∀ node c action,
     Enter node c ∈ output (graph_invoke w s) →
     assoc node (nodes (builder w)) = Some action →
     ∃ update, value (action c) = inr update) →
  ∃ final, value (graph_invoke w s) = inr final.
Proof.
  intros Hall.
  destruct (value (graph_invoke w s)) as [e|final] eqn:Hv; [|by eauto].
  exfalso.
  destruct (run_cases w s)
    as [Hq|q e' Hq He|q qd Hq Hqd Hneg|q qd e' Hq Hqd Hneg Hr
       |q qd r Hq Hqd Hneg Hr];
    cbn [value output fst snd] in *; try discriminate.
  - destruct (Hall "get_sentiment_and_category" s
                (get_sentiment_and_category w)) as [u Hu];
      [rewrite elem_of_cons; by left|reflexivity|].
    by rewrite (classify_missing w s Hq) in Hu.
  - destruct (Hall "get_sentiment_and_category" s
                (get_sentiment_and_category w)) as [u Hu];
      [rewrite elem_of_cons; by left|reflexivity|].
    by rewrite (classify_raises w s q e' Hq He) in Hu.
  - destruct (Hall "handle_queries" (classified qd s) (handle_queries w))
      as [u Hu]; [rewrite !elem_of_cons; auto|reflexivity|].
    rewrite (generate_raises w (classified qd s) (category qd) q e') in Hu;
      [done|apply classified_category|by rewrite classified_other|done].
Qed.
End Steps.

(** C8, as the code has it.  Every walk ends, whatever the initial state
    and whatever the external services do, and never raises
    [GraphRecursionError].  The steps entered are an initial part of
    classification, then one of escalate and handle_queries, then
    persistence.  A run in which every step entered returns enters all
    three and returns a state; a run in which a step raises ends at
    that step with that exception; and a run returns a state exactly
    when it entered all three. *)
Theorem walk_ends_within_three_steps (w : World) (s : State) :
  value (graph_invoke w s) ≠ inl GraphRecursionError
  ∧ ∃ branch,
      (branch = "escalate" ∨ branch = "handle_queries")
      ∧ steps (output (graph_invoke w s))
          `prefix_of`
          ["get_sentiment_and_category"; branch; "record_to_database"]
      ∧ ((∀ node c action,
            Enter node c ∈ output (graph_invoke w s) →
            assoc node (nodes (builder w)) = Some action →
            ∃ update, value (action c) = inr update) →
         steps (output (graph_invoke w s))
         = ["get_sentiment_and_category"; branch; "record_to_database"]
         ∧ ∃ final, value (graph_invoke w s) = inr final)
      ∧ (∀ node c action e,
           Enter node c ∈ output (graph_invoke w s) →
           assoc node (nodes (builder w)) = Some action →
           value (action c) = inl e →
           value (graph_invoke w s) = inl e
           ∧ last (steps (output (graph_invoke w s))) = Some node)
      ∧ ((∃ final, value (graph_invoke w s) = inr final)
         ↔ steps (output (graph_invoke w s))
           = ["get_sentiment_and_category"; branch; "record_to_database"]).
Proof.
  split.
  { destruct (run_cases w s); cbn [value fst]; discriminate. }
  assert (Hiff : ∃ branch,
    (branch = "escalate" ∨ branch = "handle_queries")
    ∧ steps (output (graph_invoke w s))
        `prefix_of`
        ["get_sentiment_and_category"; branch; "record_to_database"]
    ∧ ((∃ final, value (graph_invoke w s) = inr final)
       ↔ steps (output (graph_invoke w s))
         = ["get_sentiment_and_category"; branch; "record_to_database"])).
  { destruct (run_cases w s); cbn [value output fst snd];
      rewrite ?steps_app, ?record_steps; cbn.
    - exists "escalate". split; [auto|]. split; [by eexists [_; _]|].
      split; [intros [? [=]]|intros [=]].
    - exists "escalate". split; [auto|]. split; [by eexists [_; _]|].
      split; [intros [? [=]]|intros [=]].
    - exists "escalate". split; [auto|]. split; [done|]. split; eauto.
    - exists "handle_queries". split; [auto|]. split; [by eexists [_]|].
      split; [intros [? [=]]|intros [=]].
    - exists "handle_queries". split; [auto|]. split; [done|].
      split; eauto. }
  destruct Hiff as (branch & Hbranch & Hprefix & Hiff).
  exists branch. split; [done|]. split; [done|]. split; [|split; [|done]].
  - intros Hall. pose proof (returning_steps_complete w s Hall) as Hfinal.
    split; [by apply Hiff|done].
  - intros node c action e. apply raising_step_ends_the_run.
Qed.

Lemma walk_ends_within_three_steps_witness :
  (∀ node c action,
     Enter node c ∈ output (graph_invoke w_neutral business_hours) →
     assoc node (nodes (builder w_neutral)) = Some action →
     ∃ update, value (action c) = inr update)
  ∧ steps (output (graph_invoke w_neutral business_hours))
    = ["get_sentiment_and_category"; "handle_queries"; "record_to_database"]
  ∧ value (graph_invoke w_classifier_down business_hours)
    = inl (Failure "classifier unavailable").
Proof.
  assert (Hall : ∀ node c action,
     Enter node c ∈ output (graph_invoke w_neutral business_hours) →
     assoc node (nodes (builder w_neutral)) = Some action →
     ∃ update, value (action c) = inr update).
  { intros node c action Hin Hnode.
    destruct (value (action c)) as [e|update] eqn:Hval; [|by eauto].
    destruct (raising_step_ends_the_run w_neutral business_hours
                node c action e Hin Hnode Hval) as [Hv _].
    vm_compute in Hv. discriminate Hv. }
  split; [exact Hall|].
  destruct (walk_ends_within_three_steps w_neutral business_hours)
    as (_ & branch & Hbranch & _ & Hthree & _ & _).
  destruct (Hthree Hall) as [Hsteps _].
  split.
  - destruct Hbranch as [-> | ->]; [|exact Hsteps].
    vm_compute in Hsteps. discriminate Hsteps.
  - destruct (walk_ends_within_three_steps w_classifier_down business_hours)
      as (_ & branch' & _ & _ & _ & Hraise & _).
    refine (proj1 (Hraise "get_sentiment_and_category" business_hours
                     (get_sentiment_and_category w_classifier_down)
                     (Failure "classifier unavailable") _ eq_refl eq_refl)).
    apply (bool_decide_unpack _). vm_compute. exact I.
Defined.

(** * Further properties of the notebook's code *)

(** ** The response-generation branch *)

(** X1.  A run whose classification yields a sentiment other than
    "Negative", and whose generating model returns [r] for the prompt
    made of the classifier's category and the query, completes with
    response [r]; it enters classification, response generation and
    persistence, never the escalation step, and calls the generating
    model exactly once, with that prompt. *)
Theorem other_sentiment_is_answered (w : World) (s : State)
    (q : string) (qd : QueryDetails) (r : string) :
  s !! "query" = Some q →
  chain_invoke w q = Returned qd →
  sentiment qd ≠ "Negative" →
  llm_invoke w (prompt_for (category qd) q) = Returned r →
  (∃ final, value (graph_invoke w s) = inr final
            ∧ final !! "response" = Some r)
  ∧ steps (output (graph_invoke w s))
    = ["get_sentiment_and_category"; "handle_queries"; "record_to_database"]
  ∧ ("escalate" ∉ steps (output (graph_invoke w s)))
  ∧ List.filter is_llm_call (output (graph_invoke w s))
    = [LLMInvoke (prompt_for (category qd) q)].
Proof.
  intros Hq Hqd Hneg Hr.
  rewrite (run_answers w s q qd r Hq Hqd Hneg Hr). cbn [value output fst snd].
  rewrite steps_app, record_steps, List.filter_app. cbn.
  split; [|split; [done|split; [by apply not_in_steps|]]].
  - eexists. split; [done|]. apply answered_response.
  - by destruct (record_output_case w (answered r (classified qd s)))
      as [[msg ->]|(url & msg & ->)].
Qed.

Lemma other_sentiment_is_answered_witness :
  business_hours !! "query" = Some "What are your business hours?"
  ∧ sentiment (mkQueryDetails "Neutral" "General") ≠ "Negative"
  ∧ steps (output (graph_invoke w_neutral business_hours))
    = ["get_sentiment_and_category"; "handle_queries"; "record_to_database"].
Proof.
  assert (Hne : sentiment (mkQueryDetails "Neutral" "General") ≠ "Negative")
    by discriminate.
  split; [reflexivity|]. split; [exact Hne|].
  exact (proj1 (proj2 (other_sentiment_is_answered w_neutral business_hours
                         "What are your business hours?"
                         (mkQueryDetails "Neutral" "General")
                         "We are open from 9 to 6, Monday to Friday."
                         eq_refl eq_refl Hne eq_refl))).
Defined.

(** ** The conditional edge *)

(** X2.  Whatever the router answers is one of the two targets the
    conditional edge declares, so the check of the edge never rejects
    it: the node chosen after classification is the router's answer,
    and the only way this choice can raise is the router's own
    [KeyError] on a state without sentiment. *)
Theorem router_answer_is_a_declared_target (w : World) (c : State) :
  successor (builder w) "get_sentiment_and_category" c
  = route_query_from_sentiment c
  ∧ (∀ target out, route_query_from_sentiment c = (inr target, out) →
       target ∈ ["escalate"; "handle_queries"]
       ∧ is_Some (assoc target (nodes (builder w)))).
Proof.
  rewrite successor_classify.
  destruct (c !! "sentiment") as [v|] eqn:Hv.
  - destruct (decide (v = "Negative")) as [->|Hne].
    + rewrite (route_Negative c Hv). split; [reflexivity|].
      intros target out [= <- <-]. split; [by left|by eexists].
    + rewrite (route_other c v Hv Hne). split; [reflexivity|].
      intros target out [= <- <-]. split; [by right; left|by eexists].
  - rewrite (route_missing c Hv). split; [reflexivity|]. by intros.
Qed.

(** ** What a run depends on *)

(** X3.  A run looks at nothing in its input but the query.  Two inputs
    with the same query entry, whatever sentiment, category or response
    they already carry, enter the same steps and end alike: with the
    same exception, or with final states that agree on all four fields.
    In particular a sentiment left in the input does not steer the
    router, which sees the sentiment the classifier just returned. *)
Theorem run_depends_only_on_query (w : World) (s s' : State) :
  s !! "query" = s' !! "query" →
  steps (output (graph_invoke w s)) = steps (output (graph_invoke w s'))
  ∧ match value (graph_invoke w s), value (graph_invoke w s') with
    | inl e, inl e' => e = e'
    | inr final, inr final' => record_fields final = record_fields final'
    | _, _ => False
    end.
Proof.
  intros Hq.
  destruct (run_cases w s) as [H1|q1 e1 H1 ?|q1 qd1 H1 ? ?|q1 qd1 e1 H1 ? ? ?
                              |q1 qd1 r1 H1 ? ? ?];
    rewrite Hq in H1;
    destruct (run_cases w s'); same_call; try congruence; same_call;
    try congruence;
    cbn [value output fst snd]; rewrite ?steps_app, ?record_steps;
    (split; [reflexivity|]); try congruence.
  - unfold record_fields.
    rewrite !answered_response, !answered_other, !classified_sentiment,
      !classified_category, !classified_other by done.
    congruence.
  - unfold record_fields.
    rewrite !answered_response, !answered_other, !classified_sentiment,
      !classified_category, !classified_other by done.
    congruence.
Qed.

Lemma run_depends_only_on_query_witness :
  stale_hours !! "query" = business_hours !! "query"
  ∧ steps (output (graph_invoke w_neutral stale_hours))
    = steps (output (graph_invoke w_neutral business_hours)).
Proof.
  split; [reflexivity|].
  exact (proj1 (run_depends_only_on_query w_neutral stale_hours
                  business_hours eq_refl)).
Defined.

(** X4.  Sentiment and category are written together.  In a run started
    on a state that has neither, the classification step is entered on
    a state with neither, and every later step is entered on a state
    holding both, as the classifier returned them for the query. *)
Theorem classification_is_written_whole (w : World) (s : State)
    (node : string) (c : State) :
  s !! "sentiment" = None →
  s !! "category" = None →
  Enter node c ∈ output (graph_invoke w s) →
  (node = "get_sentiment_and_category"
   ∧ c !! "sentiment" = None ∧ c !! "category" = None)
  ∨ (node ≠ "get_sentiment_and_category"
     ∧ ∃ q qd, s !! "query" = Some q ∧ chain_invoke w q = Returned qd
               ∧ c !! "sentiment" = Some (sentiment qd)
               ∧ c !! "category" = Some (category qd)).
Proof.
  intros Hs Hc.
  destruct (run_cases w s); cbn [output snd];
    rewrite ?elem_of_app, ?elem_of_cons, ?elem_of_nil;
    intros Hin;
    repeat match type of Hin with _ ∨ _ => destruct Hin as [Hin|Hin] end;
    try discriminate; try contradiction;
    try (by destruct (record_no_enter w _ _ _ Hin));
    injection Hin as -> ->;
    first [ by left
          | right; split; [done|]; eexists _, _;
            rewrite ?answered_other by done;
            rewrite classified_sentiment, classified_category; eauto ].
Qed.

Lemma classification_is_written_whole_witness :
  business_hours !! "sentiment" = None
  ∧ business_hours !! "category" = None
  ∧ Enter "record_to_database" hours_answered
    ∈ output (graph_invoke w_neutral business_hours)
  ∧ hours_answered !! "category" = Some "General".
Proof.
  assert (Hin : Enter "record_to_database" hours_answered
                ∈ output (graph_invoke w_neutral business_hours)).
  { apply (completed_reaches_record w_neutral business_hours).
    vm_compute. reflexivity. }
  split; [reflexivity|]. split; [reflexivity|]. split; [exact Hin|].
  destruct (classification_is_written_whole w_neutral business_hours
              "record_to_database" hours_answered eq_refl eq_refl Hin)
    as [[Hnode _]|[_ (q & qd & _ & Hqd & _ & Hcat)]].
  - discriminate Hnode.
  - injection Hqd as <-. exact Hcat.
Defined.

(** ** The external services *)

(** X5.  One run calls the classifier at most once, the generating
    model at most once and the collection at most once; the collection
    is only written by runs that complete. *)
Theorem external_calls_are_bounded (w : World) (s : State) :
  (length (List.filter is_chain_call (output (graph_invoke w s))) ≤ 1)%nat
  ∧ (length (List.filter is_llm_call (output (graph_invoke w s))) ≤ 1)%nat
  ∧ (length (List.filter is_insert (output (graph_invoke w s))) ≤ 1)%nat
  ∧ (List.filter is_insert (output (graph_invoke w s)) ≠ [] →
     ∃ final, value (graph_invoke w s) = inr final).
Proof.
  destruct (run_cases w s); cbn [value output fst snd];
    rewrite ?List.filter_app;
    try match goal with
      | |- context [record_to_database w ?c] =>
          destruct (record_output_case w c) as [[msg ->]|(url & msg & ->)]
      end;
    cbn; repeat split; try lia; try done; eauto.
Qed.

(** X6.  What the collection is handed is the state the caller gets: if
    a run calls [insert_one], the connection string is the value of
    MONGO_URL, the run completes, the state it returns is the document
    inserted, and that document holds a query, a category, a sentiment
    and a response. *)
Theorem stored_document_is_the_returned_state (w : World) (s : State)
    (url : string) (payload : State) :
  InsertOne url payload ∈ output (graph_invoke w s) →
  environ w !! "MONGO_URL" = Some url
  ∧ value (graph_invoke w s) = inr payload
  ∧ is_Some (payload !! "query") ∧ is_Some (payload !! "category")
  ∧ is_Some (payload !! "sentiment") ∧ is_Some (payload !! "response").
Proof.
  assert (Hrec : ∀ c, InsertOne url payload ∈ output (record_to_database w c) →
                      environ w !! "MONGO_URL" = Some url ∧ payload = c).
  { intros c. destruct (record_cases w c); cbn [output snd];
      rewrite ?elem_of_cons, ?elem_of_nil; intros Hin;
      repeat match type of Hin with _ ∨ _ => destruct Hin as [Hin|Hin] end;
      try discriminate; try contradiction;
      injection Hin as -> ->; done. }
  destruct (run_cases w s); cbn [value output fst snd];
    rewrite ?elem_of_app, ?elem_of_cons, ?elem_of_nil; intros Hin;
    repeat match type of Hin with _ ∨ _ => destruct Hin as [Hin|Hin] end;
    try discriminate; try contradiction;
    destruct (Hrec _ Hin) as [Hurl ->];
    (split; [done|]); (split; [done|]);
    rewrite answered_response, !answered_other, classified_sentiment,
      classified_category, classified_other by done;
    eauto 10.
Qed.

Lemma stored_document_is_the_returned_state_witness :
  InsertOne "mongodb://localhost:27017" hours_answered
    ∈ output (graph_invoke w_neutral business_hours)
  ∧ value (graph_invoke w_neutral business_hours) = inr hours_answered.
Proof.
  assert (Hin : InsertOne "mongodb://localhost:27017" hours_answered
                ∈ output (graph_invoke w_neutral business_hours)).
  { apply (bool_decide_unpack _). vm_compute. exact I. }
  split; [exact Hin|].
  exact (proj1 (proj2 (stored_document_is_the_returned_state w_neutral
                         business_hours _ _ Hin))).
Defined.

Lemma record_without_url (w : World) (c : State) :
  environ w !! "MONGO_URL" = None →
  record_to_database w c
  = (inr None, [Printed ["An error occurred: "; "'MONGO_URL'"]]).
Proof. intros Hurl. destruct (record_cases w c); [done|congruence..]. Qed.

(** X7.  Without MONGO_URL in the environment the collection is never
    contacted: the lookup of the variable raises inside the [try], no
    [insert_one] happens, and a run that reaches the persistence step
    ends by printing the error, whose text is the quoted variable name,
    and returns its state all the same. *)
Theorem missing_url_skips_the_store (w : World) (s : State) :
  environ w !! "MONGO_URL" = None →
  (∀ url payload, InsertOne url payload ∉ output (graph_invoke w s))
  ∧ (∀ c, Enter "record_to_database" c ∈ output (graph_invoke w s) →
       value (graph_invoke w s) = inr c
       ∧ last (output (graph_invoke w s))
         = Some (Printed ["An error occurred: "; "'MONGO_URL'"])).
Proof.
  intros Hurl. split.
  - intros url payload.
    destruct (run_cases w s); cbn [output snd];
      rewrite ?(record_without_url w _ Hurl); cbn [output snd];
      rewrite ?elem_of_app, ?elem_of_cons, ?elem_of_nil; intros Hin;
      repeat match type of Hin with _ ∨ _ => destruct Hin as [Hin|Hin] end;
      try discriminate; contradiction.
  - intros c Hin. destruct (reach_record w s c Hin) as [Hv [pre Hout]].
    split; [done|].
    rewrite Hout, (record_without_url w c Hurl). cbn [output snd].
    by rewrite last_app, last_cons.
Qed.

Lemma missing_url_skips_the_store_witness :
  environ w_no_url !! "MONGO_URL" = None
  ∧ value (graph_invoke w_no_url business_hours) = inr hours_answered
  ∧ last (output (graph_invoke w_no_url business_hours))
    = Some (Printed ["An error occurred: "; "'MONGO_URL'"]).
Proof.
  split; [reflexivity|].
  apply (proj2 (missing_url_skips_the_store w_no_url business_hours eq_refl)).
  apply (completed_reaches_record w_no_url business_hours).
  vm_compute. reflexivity.
Defined.

(** X13.  When the collection accepts the document, the run ends by
    printing the inserted id, and returns the state the persistence
    step was entered on, whatever the driver did to the dictionary it
    was handed. *)
Theorem successful_store_is_reported (w : World) (s c c' : State)
    (url x : string) :
  Enter "record_to_database" c ∈ output (graph_invoke w s) →
  environ w !! "MONGO_URL" = Some url →
  insert_one w url c = (Returned x, c') →
  value (graph_invoke w s) = inr c
  ∧ List.filter is_insert (output (graph_invoke w s)) = [InsertOne url c]
  ∧ last (output (graph_invoke w s))
    = Some (Printed ["Inserted document ID: " ++ x]).
Proof.
  intros Hin Hurl Hins.
  assert (Hrec : record_to_database w c
                 = (inr None,
                    [InsertOne url c;
                     Printed ["Inserted document ID: " ++ x]])).
  { destruct (record_cases w c); [congruence| |];
      same_call; [congruence|].
    match goal with H : insert_one w url c = _ |- _ =>
      rewrite Hins in H; injection H as <- <- end.
    reflexivity. }
  destruct (reach_record w s c Hin) as [Hv _]. split; [done|].
  destruct (run_cases w s); cbn [value output fst snd] in *;
    try discriminate; injection Hv as <-;
    rewrite Hrec; cbn; done.
Qed.

Lemma successful_store_is_reported_witness :
  Enter "record_to_database" hours_answered
    ∈ output (graph_invoke w_neutral business_hours)
  ∧ environ w_neutral !! "MONGO_URL" = Some "mongodb://localhost:27017"
  ∧ last (output (graph_invoke w_neutral business_hours))
    = Some (Printed ["Inserted document ID: 67ece14ccbd07acc4db059db"]).
Proof.
  assert (Hin : Enter "record_to_database" hours_answered
                ∈ output (graph_invoke w_neutral business_hours)).
  { apply (completed_reaches_record w_neutral business_hours).
    vm_compute. reflexivity. }
  split; [exact Hin|]. split; [reflexivity|].
  exact (proj2 (proj2 (successful_store_is_reported w_neutral business_hours
                         hours_answered
                         (<[ "_id" := "67ece14ccbd07acc4db059db" ]>
                            hours_answered)
                         "mongodb://localhost:27017"
                         "67ece14ccbd07acc4db059db" Hin eq_refl eq_refl))).
Defined.

(** ** When a run completes *)

(** X8.  A run returns a state exactly when the input has a query, the
    classifier returns for it, and either the sentiment returned is
    "Negative" or the generating model returns for the prompt made of
    the returned category and the query.  Nothing else can make a run
    fail: not the lookups of category and sentiment, not the router, not
    the persistence step. *)
Theorem run_completes_iff (w : World) (s : State) :
  (∃ final, value (graph_invoke w s) = inr final)
  ↔ ∃ q qd, s !! "query" = Some q
            ∧ chain_invoke w q = Returned qd
            ∧ (sentiment qd = "Negative"
               ∨ ∃ r, llm_invoke w (prompt_for (category qd) q) = Returned r).
Proof.
  split.
  - intros [final Hfinal].
    destruct (run_cases w s); cbn [value fst] in Hfinal; try discriminate;
      eauto 10.
  - intros (q & qd & Hq & Hqd & [Hneg|[r Hr]]).
    + rewrite (run_escalates w s q qd Hq Hqd Hneg). eauto.
    + destruct (decide (sentiment qd = "Negative")) as [Hneg|Hneg].
      * rewrite (run_escalates w s q qd Hq Hqd Hneg). eauto.
      * rewrite (run_answers w s q qd r Hq Hqd Hneg Hr). eauto.
Qed.

(** ** [run_agent] *)

(** X9.  [run_agent] raises exactly when [graph.invoke] raises, with the
    same exception and nothing printed after it.  Otherwise the three
    lookups in the result all succeed and, after what the graph did, it
    prints five lines: the query, the sentiment, the category and the
    response of the final state, and the separator. *)
Theorem run_agent_prints_the_final_state (w : World) (query : string) :
  match value (graph_invoke w {[ "query" := query ]}) with
  | inl e =>
      run_agent w query
      = (inl e, output (graph_invoke w {[ "query" := query ]}))
  | inr final =>
      ∃ sentiment category response,
        final !! "sentiment" = Some sentiment
        ∧ final !! "category" = Some category
        ∧ final !! "response" = Some response
        ∧ run_agent w query
          = (inr tt,
             output (graph_invoke w {[ "query" := query ]})
             ++ [Printed ["Query: "; query];
                 Printed ["Sentiment: "; sentiment];
                 Printed ["Category: "; category];
                 Printed ["Response: "; response];
                 Printed ["-x-x-x-x-x-x-x-x-"]])%list
  end.
Proof.
  unfold run_agent.
  destruct (run_cases w {[ "query" := query ]})
    as [?|q e ? ?|q qd Hq Hqd Hneg|q qd e Hq Hqd Hneg Hr|q qd r Hq Hqd Hneg Hr];
    cbn [value output fst snd]; try reflexivity.
  - exists (sentiment qd), (category qd), escalation_message.
    rewrite answered_response, !answered_other, classified_sentiment,
      classified_category by done.
    repeat (split; [done|]).
    match goal with |- context [(inr ?f, ?o) ≫= _] =>
      generalize o; intros out end.
    cbn.
    rewrite (getitem_Some _ "sentiment" (sentiment qd)),
      (getitem_Some _ "category" (category qd)),
      (getitem_Some _ "response" escalation_message);
      rewrite ?answered_response, ?answered_other, ?classified_sentiment,
        ?classified_category by done; try done.
  - exists (sentiment qd), (category qd), r.
    rewrite answered_response, !answered_other, classified_sentiment,
      classified_category by done.
    repeat (split; [done|]).
    match goal with |- context [(inr ?f, ?o) ≫= _] =>
      generalize o; intros out end.
    cbn.
    rewrite (getitem_Some _ "sentiment" (sentiment qd)),
      (getitem_Some _ "category" (category qd)),
      (getitem_Some _ "response" r);
      rewrite ?answered_response, ?answered_other, ?classified_sentiment,
        ?classified_category by done; try done.
Qed.

(** ** The test loop *)

Lemma mbind_raises {A B} (m : M A) (f : A → M B) (e : exn) :
  value m = inl e → (m ≫= f) = (inl e, output m).
Proof. destruct m as [[e'|a] out]; cbn; congruence. Qed.

Lemma mbind_returns {A B} (m : M A) (f : A → M B) (a : A) :
  value m = inr a →
  (m ≫= f) = (value (f a), (output m ++ output (f a))%list).
Proof.
  destruct m as [[e'|a'] out]; cbn; [discriminate|]. intros [= ->].
  by destruct (f a).
Qed.

(** X10.  The loop over the queries stops at the first query for which
    [run_agent] raises: when every query before it was handled, the loop
    raises that exception, the log holds what those runs and the failing
    run did, and the queries after it are not touched. *)
Theorem loop_stops_at_the_first_failure (ws : nat → World) (i : nat)
    (qs1 : list string) (q : string) (qs2 : list string) (e : exn) :
  (∀ j q', qs1 !! j = Some q' →
           value (run_agent (ws (i + j)) q') = inr tt) →
  value (run_agent (ws (i + length qs1)) q) = inl e →
  for_each_query ws i (qs1 ++ q :: qs2)
  = (inl e, outputs_from ws i (qs1 ++ [q])).
Proof.
  revert i. induction qs1 as [|q1 qs1 IH]; intros i Hok Hfail.
  - cbn in Hfail. rewrite Nat.add_0_r in Hfail. cbn.
    rewrite (mbind_raises _ _ e Hfail). by rewrite app_nil_r.
  - cbn [app for_each_query outputs_from].
    pose proof (Hok 0 q1 eq_refl) as H1. rewrite Nat.add_0_r in H1.
    rewrite (mbind_returns _ _ tt H1).
    rewrite IH.
    + reflexivity.
    + intros j q' Hj. rewrite Nat.add_succ_l, <- Nat.add_succ_r.
      by apply Hok.
    + cbn in Hfail. by rewrite Nat.add_succ_l, <- Nat.add_succ_r.
Qed.

Lemma loop_stops_at_the_first_failure_witness :
  value (run_agent (ws_down_after_first 1)
           "The delivery experience of my recent package was pretty bad. I was not expecting that.")
  = inl (Failure "classifier unavailable")
  ∧ value (for_each_query ws_down_after_first 0
             ("What are your business hours?" :: List.tl queries))
    = inl (Failure "classifier unavailable").
Proof.
  assert (Hfail : value (run_agent (ws_down_after_first
                                      (0 + length ["What are your business hours?"]))
                           "The delivery experience of my recent package was pretty bad. I was not expecting that.")
                  = inl (Failure "classifier unavailable"))
    by (vm_compute; reflexivity).
  split; [exact Hfail|].
  assert (Hok : ∀ j q', ["What are your business hours?"] !! j = Some q' →
                        value (run_agent (ws_down_after_first (0 + j)) q')
                        = inr tt).
  { intros [|j] q' Hj; [|discriminate Hj].
    injection Hj as <-. vm_compute. reflexivity. }
  exact (f_equal fst
           (loop_stops_at_the_first_failure ws_down_after_first 0
              ["What are your business hours?"] _
              (List.tl (List.tl queries)) _ Hok Hfail)).
Defined.

(** X11.  When [run_agent] handles every query of the list, the loop
    ends normally and its log is the logs of the runs one after the
    other, in the order of the list. *)
Theorem loop_runs_every_query (ws : nat → World) (i : nat)
    (qs : list string) :
  (∀ j q, qs !! j = Some q → value (run_agent (ws (i + j)) q) = inr tt) →
  for_each_query ws i qs = (inr tt, outputs_from ws i qs).
Proof.
  revert i. induction qs as [|q qs IH]; intros i Hok; [reflexivity|].
  cbn [for_each_query outputs_from].
  pose proof (Hok 0 q eq_refl) as H1. rewrite Nat.add_0_r in H1.
  rewrite (mbind_returns _ _ tt H1), IH; [reflexivity|].
  intros j q' Hj. rewrite Nat.add_succ_l, <- Nat.add_succ_r. by apply Hok.
Qed.

Lemma loop_runs_every_query_witness :
  value (for_each_query (λ _, w_neutral) 0 queries) = inr tt.
Proof.
  refine (f_equal fst (loop_runs_every_query (λ _, w_neutral) 0 queries _)).
  intros j q Hj.
  destruct j as [|[|[|[|j]]]]; try discriminate Hj;
    injection Hj as <-; vm_compute; reflexivity.
Defined.

(** ** The shape of the graph alone *)

Lemma mbind_mret {A B} (a : A) (f : A → M B) : (mret a ≫= f) = f a.
Proof. unfold mbind, M_bind, mret, M_ret, bind, ret. by destruct (f a). Qed.

Lemma mbind_assoc {A B C} (m : M A) (f : A → M B) (h : B → M C) :
  ((m ≫= f) ≫= h) = (m ≫= λ x, f x ≫= h).
Proof.
  unfold mbind, M_bind, bind. destruct m as [[e|a] out]; [done|].
  destruct (f a) as [[e|b] out']; [done|].
  destruct (h b) as [r out'']. by rewrite app_assoc.
Qed.

Lemma mbind_ext {A B} (m : M A) (f h : A → M B) :
  (∀ a, f a = h a) → (m ≫= f) = (m ≫= h).
Proof.
  intros Hfh. unfold mbind, M_bind, bind.
  destruct m as [[e|a] out]; [done|]. by rewrite Hfh.
Qed.

Section Wiring.
Context (classify escalation generation persistence : Node) (route : Router).
Implicit Types s c : State.

Let g : StateGraph :=
  wired classify escalation generation persistence route.

Lemma wired_persistence fuel c :
  walk g (S (S fuel)) "record_to_database" c
  = walk g 2 "record_to_database" c.
Proof.
  erewrite !walk_node; [|done|reflexivity|done|reflexivity].
  apply mbind_ext; intros _. apply mbind_ext; intros update.
  change (successor g "record_to_database" (apply_writes update c))
    with (mret (M := M) END).
  by rewrite !mbind_mret, !walk_END.
Qed.

Lemma wired_escalation fuel c :
  walk g (S (S (S fuel))) "escalate" c = walk g 3 "escalate" c.
Proof.
  erewrite !walk_node; [|done|reflexivity|done|reflexivity].
  apply mbind_ext; intros _. apply mbind_ext; intros update.
  change (successor g "escalate" (apply_writes update c))
    with (mret (M := M) "record_to_database").
  rewrite !mbind_mret. apply wired_persistence.
Qed.

Lemma wired_generation fuel c :
  walk g (S (S (S fuel))) "handle_queries" c = walk g 3 "handle_queries" c.
Proof.
  erewrite !walk_node; [|done|reflexivity|done|reflexivity].
  apply mbind_ext; intros _. apply mbind_ext; intros update.
  change (successor g "handle_queries" (apply_writes update c))
    with (mret (M := M) "record_to_database").
  rewrite !mbind_mret. apply wired_persistence.
Qed.

Lemma wired_classification fuel s :
  walk g (S (S (S (S fuel)))) "get_sentiment_and_category" s
  = walk g 4 "get_sentiment_and_category" s.
Proof.
  erewrite !walk_node; [|done|reflexivity|done|reflexivity].
  apply mbind_ext; intros _. apply mbind_ext; intros update.
  change (successor g "get_sentiment_and_category" (apply_writes update s))
    with (target ← route (apply_writes update s);
          if bool_decide (target ∈ ["escalate"; "handle_queries"])
          then mret target else raise (KeyError target)).
  rewrite !mbind_assoc. apply mbind_ext; intros target.
  case_bool_decide as Ht; [|reflexivity].
  rewrite !mbind_mret.
  rewrite !elem_of_cons, elem_of_nil in Ht.
  destruct Ht as [->|[->|[]]];
    [apply wired_escalation|apply wired_generation].
Qed.
End Wiring.


